(** * apigw_rest_api: the REST API reconciler of api-gateway-ansible

    A shallow embedding of [library/apigw_rest_api.py] (class [ApiGwRestApi])
    and the properties of its reconciliation pass.

    - Python values that the module reads are [pyval]: [None] or a string.
    - Python dictionaries ([module.params], a REST API as listed by the
      service, the keyword arguments of [create_rest_api]) are
      [gmap string pyval]; [d.get(k)] is [get d k], [d[k]] is [d !! k]
      with [KeyError] on a missing key.
    - The boto3 client is an interface ([Client]) over an abstract remote
      state; every call is recorded in a log, so that "which calls were
      issued" is a statement about the log.
    - [module.fail_json] and [module.exit_json] end the invocation.
    - The constructor (the import check and [boto3.client]) and [main] are
      outside the pass and are not modelled. *)

From stdpp Require Import base gmap strings list pretty.

Open Scope string_scope.
Open Scope list_scope.

(** ** Python values and dictionaries *)

Inductive pyval : Type :=
| PNone
| PStr (s : string).

#[global] Instance pyval_eq_dec : EqDecision pyval.
Proof. solve_decision. Defined.

Abbreviation dict := (gmap string pyval).

(** [d.get(k)]: the value under [k], [None] when the key is missing. *)
Definition get (d : dict) (k : string) : pyval := default PNone (d !! k).

(** Python truth value of a [None]-or-string value: [None] and [''] are false. *)
Definition truthy (v : pyval) : bool :=
  match v with
  | PNone => false
  | PStr s => negb (bool_decide (s = ""))
  end.

(** Python truth value of a [None]-or-dictionary value: [None] and [{}] are
    false. *)
Definition truthy_api (api : option dict) : bool :=
  match api with
  | None => false
  | Some d => negb (bool_decide (d = ∅))
  end.

(** One entry of [patchOperations]: [{'op': .., 'path': .., 'value': ..}]. *)
Record patch_op : Type := PatchOp { op : string; path : string; value : pyval }.

#[global] Instance patch_op_eq_dec : EqDecision patch_op.
Proof. solve_decision. Defined.

(** ** The remote accessor *)

(** The response of [get_rest_apis]; the module reads its ['items'] only. *)
Record rest_apis : Type := RestApis { items : list dict }.

(** A client call either answers or raises [BotoCoreError] with a text. *)
Inductive reply (A : Type) : Type :=
| Answer (a : A)
| BotoCoreError (e : string).
Arguments Answer {A} a.
Arguments BotoCoreError {A} e.

(** The calls the module makes on [self.client], with their arguments. *)
Inductive call : Type :=
| get_rest_apis
| create_rest_api (kwargs : dict)
| update_rest_api (restApiId : pyval) (patchOperations : list patch_op)
| delete_rest_api (restApiId : pyval).

#[global] Instance call_eq_dec : EqDecision call.
Proof. solve_decision. Defined.

Definition mutating (c : call) : bool :=
  match c with
  | get_rest_apis => false
  | _ => true
  end.

Definition is_create (c : call) : bool :=
  match c with create_rest_api _ => true | _ => false end.
Definition is_update (c : call) : bool :=
  match c with update_rest_api _ _ => true | _ => false end.
Definition is_delete (c : call) : bool :=
  match c with delete_rest_api _ => true | _ => false end.

(** The capability set of the client over a remote state [S]: listing reads
    the state, the three others may change it, and each may raise. *)
Class Client (S : Type) : Type := {
  client_get_rest_apis : S → reply rest_apis;
  client_create_rest_api : dict → S → S * reply dict;
  client_update_rest_api : pyval → list patch_op → S → S * reply dict;
  client_delete_rest_api : pyval → S → S * reply dict;
}.

(** ** Invocations: state, log and early termination *)

(** How a piece of the module ends: it returns a value, [fail_json] ends the
    invocation with a message, or an exception nobody catches escapes. *)
Inductive result (A : Type) : Type :=
| Return (a : A)
| FailJson (msg : string)
| Uncaught (exn : string).
Arguments Return {A} a.
Arguments FailJson {A} msg.
Arguments Uncaught {A} exn.

Record world (S : Type) : Type := World { remote : S; calls : list call }.
Arguments World {S} remote calls.
Arguments remote {S} w.
Arguments calls {S} w.

Definition M (S A : Type) : Type := world S → world S * result A.

Definition ret {S A} (a : A) : M S A := fun w => (w, Return a).

Definition bind {S A B} (m : M S A) (k : A → M S B) : M S B :=
  fun w =>
    match m w with
    | (w', Return a) => k a w'
    | (w', FailJson msg) => (w', FailJson msg)
    | (w', Uncaught exn) => (w', Uncaught exn)
    end.

Definition fail_json {S A} (msg : string) : M S A := fun w => (w, FailJson msg).

Definition raise {S A} (exn : string) : M S A := fun w => (w, Uncaught exn).

Declare Scope py_scope.
Delimit Scope py_scope with py.
Notation "x <- m ;; k" := (bind m (fun x => k))
  (at level 100, m at next level, right associativity) : py_scope.

(** The arguments of [module.exit_json]. *)
Record exit_json : Type := ExitJson { changed : bool; api : option dict }.

(** The module object: its parameter bag and the check-mode flag. *)
Record module : Type := AnsibleModule { params : dict; check_mode : bool }.

(** ** ApiGwRestApi *)

(** [list(filter(lambda result: result['name'] == id, items))]: the lambda
    raises [KeyError] on an entry without a ['name']. *)
Fixpoint filter_by_name (id : pyval) (l : list dict) : result (list dict) :=
  match l with
  | [] => Return []
  | r :: l' =>
      match r !! "name" with
      | None => Uncaught "KeyError: 'name'"
      | Some v =>
          match filter_by_name id l' with
          | Return rest => Return (if decide (v = id) then r :: rest else rest)
          | FailJson msg => FailJson msg
          | Uncaught exn => Uncaught exn
          end
      end
  end.

(** [_is_changed(api, params)] *)
Definition _is_changed (api params : dict) : bool :=
  negb (bool_decide (get api "name" = get params "name"))
  || negb (bool_decide (get api "description" = get params "description")).

Section ApiGwRestApi.
Context {S : Type} `{Client S}.
Variable self : module.

Local Open Scope py_scope.

(** The four client calls, each logged. *)
Definition call_get_rest_apis : M S (reply rest_apis) :=
  fun w => (World (remote w) (calls w ++ [get_rest_apis]),
            Return (client_get_rest_apis (remote w))).

Definition call_create_rest_api (kwargs : dict) : M S (reply dict) :=
  fun w => let '(s, r) := client_create_rest_api kwargs (remote w) in
           (World s (calls w ++ [create_rest_api kwargs]), Return r).

Definition call_update_rest_api (id : pyval) (ops : list patch_op)
  : M S (reply dict) :=
  fun w => let '(s, r) := client_update_rest_api id ops (remote w) in
           (World s (calls w ++ [update_rest_api id ops]), Return r).

Definition call_delete_rest_api (id : pyval) : M S (reply dict) :=
  fun w => let '(s, r) := client_delete_rest_api id (remote w) in
           (World s (calls w ++ [delete_rest_api id]), Return r).

Definition _retrieve_rest_api : M S (option dict) :=
  results <- call_get_rest_apis ;;
  match results with
  | Answer results =>
      let id := get (params self) "name" in
      match filter_by_name id (items results) with
      | Return api =>
          match api with
          | [] => ret None
          | api0 :: _ => ret (Some api0)
          end
      | FailJson msg => fail_json msg
      | Uncaught exn => raise exn
      end
  | BotoCoreError e =>
      fail_json
        ("Encountered fatal error calling boto3 get_rest_apis function: " +:+ e)
  end.

Definition _update_api (id : pyval) : M S (bool * option dict) :=
  let description :=
    if decide (get (params self) "description" = PNone) then PStr ""
    else get (params self) "description" in
  if negb (check_mode self) then
    r <- call_update_rest_api id
           [ PatchOp "replace" "/name" (get (params self) "name");
             PatchOp "replace" "/description" description ] ;;
    match r with
    | Answer api => ret (true, Some api)
    | BotoCoreError e =>
        fail_json
          ("Encountered fatal error calling boto3 update_rest_api function: "
             +:+ e)
    end
  else ret (true, None).

Definition create_kwargs : dict :=
  let kwargs : dict := {[ "name" := get (params self) "name" ]} in
  if truthy (get (params self) "description")
  then <[ "description" := get (params self) "description" ]> kwargs
  else kwargs.

Definition _create_api : M S (bool * option dict) :=
  let kwargs := create_kwargs in
  if negb (check_mode self) then
    r <- call_create_rest_api kwargs ;;
    match r with
    | Answer api => ret (true, Some api)
    | BotoCoreError e =>
        fail_json
          ("Encountered fatal error calling boto3 create_rest_api function: "
             +:+ e)
    end
  else ret (true, None).

Definition _create_or_update_api (api : option dict)
  : M S (bool * option dict) :=
  if negb (truthy_api api) then _create_api
  else
    match api with
    | Some a =>
        if _is_changed a (params self) then _update_api (get a "id")
        else ret (false, api)
    | None => ret (false, api)
    end.

Definition _maybe_delete_api (api : option dict) : M S (bool * option dict) :=
  if truthy_api api then
    match api with
    | Some a =>
        if negb (check_mode self) then
          r <- call_delete_rest_api (get a "id") ;;
          match r with
          | Answer api' => ret (true, Some api')
          | BotoCoreError e =>
              fail_json
                ("Encountered fatal error calling boto3 delete_rest_api function: "
                   +:+ e)
          end
        else ret (true, api)
    | None => ret (false, api)
    end
  else ret (false, api).

Definition process_request : M S exit_json :=
  api <- _retrieve_rest_api ;;
  r <- (if decide (get (params self) "state" = PStr "absent")
        then _maybe_delete_api api
        else _create_or_update_api api) ;;
  ret (ExitJson r.1 r.2).

End ApiGwRestApi.

(** ** A remote collection whose calls take effect

    The entries are kept in listing order. [create] appends an entry with
    the given attributes and a new id, [update] applies the patch to the
    entries of that id, [delete] removes them. *)
Module Store.

Record t : Type := Make { entries : list dict; next_id : nat }.

(** ['/name'] addresses the attribute ['name']. *)
Definition path_key (p : string) : string :=
  if String.prefix "/" p then String.substring 1 (String.length p - 1) p
  else p.

Definition apply_op (r : dict) (p : patch_op) : dict :=
  if decide (op p = "replace") then <[ path_key (path p) := value p ]> r
  else r.

Definition apply_ops (ops : list patch_op) (r : dict) : dict :=
  foldl apply_op r ops.

Definition has_id (id : pyval) (r : dict) : bool :=
  bool_decide (get r "id" = id).

Definition patch_entry (id : pyval) (ops : list patch_op) (r : dict) : dict :=
  if has_id id r then apply_ops ops r else r.

Definition create (kwargs : dict) (s : t) : t * reply dict :=
  let r := <[ "id" := PStr (pretty (next_id s)) ]> kwargs in
  (Make (entries s ++ [r]) (Datatypes.S (next_id s)), Answer r).

Definition update (id : pyval) (ops : list patch_op) (s : t) : t * reply dict :=
  match List.find (has_id id) (entries s) with
  | Some r =>
      (Make (patch_entry id ops <$> entries s) (next_id s),
       Answer (apply_ops ops r))
  | None => (s, BotoCoreError "NotFoundException")
  end.

Definition delete (id : pyval) (s : t) : t * reply dict :=
  match List.find (has_id id) (entries s) with
  | Some _ =>
      (Make (List.filter (fun r => negb (has_id id r)) (entries s)) (next_id s),
       Answer ∅)
  | None => (s, BotoCoreError "NotFoundException")
  end.

#[global] Instance client : Client t := {|
  client_get_rest_apis s := Answer (RestApis (entries s));
  client_create_rest_api := create;
  client_update_rest_api := update;
  client_delete_rest_api := delete;
|}.

End Store.

(** One invocation of the module on a remote state, with an empty log. *)
Definition run {S} `{Client S} (self : module) (s : S)
  : world S * result exit_json :=
  process_request self (World s []).

(** ** Vocabulary of the specification *)

(** The entry carries the identifying attribute. *)
Definition has_name (r : dict) : Prop := is_Some (r !! "name").

(** The identifying attribute of the entry equals [id]. *)
Definition named (id : pyval) (r : dict) : bool :=
  bool_decide (r !! "name" = Some id).

(** The first entry, in listing order, whose identifying attribute equals
    [id]; none when no entry matches. *)
Definition first_match (id : pyval) (l : list dict) : option dict :=
  List.find (named id) l.

(** [None] read as the empty string, as [_update_api] does for the
    description it sends. *)
Definition or_empty (v : pyval) : pyval :=
  match v with
  | PNone => PStr ""
  | _ => v
  end.

(** The diff in the specification's words: field-by-field equality over the
    tracked attributes, an attribute absent in the desired state read as the
    empty string. *)
Definition diff_spec (remote desired : dict) : bool :=
  negb (bool_decide (get remote "name" = or_empty (get desired "name")))
  || negb (bool_decide
             (get remote "description" = or_empty (get desired "description"))).

(** A patch operation addresses an attribute whose value differs between the
    remote resource and the desired state. *)
Definition patches_differing (remote desired : dict) (p : patch_op) : bool :=
  negb (bool_decide (get remote (Store.path_key (path p))
                     = get desired (Store.path_key (path p)))).

(** The patch that [_update_api] sends. *)
Definition update_patch (params : dict) : list patch_op :=
  [ PatchOp "replace" "/name" (get params "name");
    PatchOp "replace" "/description" (or_empty (get params "description")) ].

(** What the module reports when a mutating call answers or raises. *)
Definition report (operation : string) (r : reply dict) : result exit_json :=
  match r with
  | Answer a => Return (ExitJson true (Some a))
  | BotoCoreError e =>
      FailJson ("Encountered fatal error calling boto3 " +:+ operation
                  +:+ " function: " +:+ e)
  end.

(** Sample data: the resource and the desired states of the documentation. *)
Definition docs_v1 : dict :=
  {[ "id" := PStr "c8888abcde"; "name" := PStr "docs.example.io";
     "description" := PStr "v1" ]}.

Definition desired (description state : pyval) : dict :=
  let d : dict := {[ "name" := PStr "docs.example.io"; "state" := state ]} in
  match description with
  | PNone => d
  | _ => <[ "description" := description ]> d
  end.

(** ** The pass as a decision table *)

Section Decision.
Context {S : Type} `{Client S}.

(** The world after the lookup: one more call in the log, same remote. *)
Definition looked_up (w : world S) : world S :=
  World (remote w) (calls w ++ [get_rest_apis]).

(** A mutating call made right after the lookup, and what is reported. *)
Definition mutate (w : world S) (c : call) (operation : string)
    (o : S * reply dict) : world S * result exit_json :=
  (World o.1 (calls w ++ [get_rest_apis; c]), report operation o.2).

(** The whole pass, once the listing answered with entries that all carry
    a name: which branch is taken, which call is made, what is reported. *)
Definition decision (self : module) (w : world S) (l : list dict)
  : world S * result exit_json :=
  let fetched := first_match (get (params self) "name") l in
  if decide (get (params self) "state" = PStr "absent") then
    match fetched with
    | None => (looked_up w, Return (ExitJson false None))
    | Some r =>
        if check_mode self then (looked_up w, Return (ExitJson true (Some r)))
        else mutate w (delete_rest_api (get r "id")) "delete_rest_api"
               (client_delete_rest_api (get r "id") (remote w))
    end
  else
    match fetched with
    | None =>
        if check_mode self then (looked_up w, Return (ExitJson true None))
        else mutate w (create_rest_api (create_kwargs self)) "create_rest_api"
               (client_create_rest_api (create_kwargs self) (remote w))
    | Some r =>
        if _is_changed r (params self) then
          if check_mode self then (looked_up w, Return (ExitJson true None))
          else mutate w
                 (update_rest_api (get r "id") (update_patch (params self)))
                 "update_rest_api"
                 (client_update_rest_api (get r "id")
                    (update_patch (params self)) (remote w))
        else (looked_up w, Return (ExitJson false (Some r)))
    end.

End Decision.

(** ** Sample data and two runs in succession *)

Definition other_api : dict :=
  {[ "id" := PStr "b2"; "name" := PStr "other.example.io" ]}.

Definition docs_copy : dict :=
  {[ "id" := PStr "d4"; "name" := PStr "docs.example.io";
     "description" := PStr "copy" ]}.

Definition remote_with (l : list dict) : world Store.t :=
  World (Store.Make l 1) [].

(** Unfold the pass down to the client calls. *)
Ltac unfold_pass :=
  unfold process_request, _retrieve_rest_api, _maybe_delete_api,
    _create_or_update_api, _create_api, _update_api, bind, ret, fail_json,
    raise, call_get_rest_apis, call_create_rest_api, call_update_rest_api,
    call_delete_rest_api; simpl.

Ltac all_named :=
  repeat (constructor; [vm_compute; eexists; reflexivity|]); constructor.

(** The changed value of a run that exits, none otherwise. *)
Definition changed_of (r : result exit_json) : option bool :=
  match r with
  | Return e => Some (changed e)
  | _ => None
  end.

(** Two runs in succession, the second on the remote state the first left. *)
Definition run_twice (self : module) (s : Store.t) : option bool * option bool :=
  let first := run self s in
  (changed_of first.2, changed_of (run self (remote first.1)).2).

(** ** Vocabulary of the further properties *)

(** The boto3 function behind a client call. *)
Definition operation_of (c : call) : string :=
  match c with
  | get_rest_apis => "get_rest_apis"
  | create_rest_api _ => "create_rest_api"
  | update_rest_api _ _ => "update_rest_api"
  | delete_rest_api _ => "delete_rest_api"
  end.

(** What the client does with a mutating call on a remote state: the state
    it leaves and its reply; the listing is not a mutating call. *)
Definition perform {S} `{Client S} (c : call) (s : S)
  : option (S * reply dict) :=
  match c with
  | get_rest_apis => None
  | create_rest_api kwargs => Some (client_create_rest_api kwargs s)
  | update_rest_api id ops => Some (client_update_rest_api id ops s)
  | delete_rest_api id => Some (client_delete_rest_api id s)
  end.

(** The description a call hands to the service, if it hands one. *)
Definition description_sent (c : call) : option pyval :=
  match c with
  | create_rest_api kwargs => kwargs !! "description"
  | update_rest_api _ ops =>
      value <$> List.find (fun o => bool_decide (path o = "/description")) ops
  | _ => None
  end.

(** A service that is down: every call raises. *)
Module Outage.

Inductive t : Type := Down.

Definition fault : string := "An unspecified error occurred".

#[global] Instance client : Client t := {|
  client_get_rest_apis _ := BotoCoreError fault;
  client_create_rest_api _ s := (s, BotoCoreError fault);
  client_update_rest_api _ _ s := (s, BotoCoreError fault);
  client_delete_rest_api _ s := (s, BotoCoreError fault);
|}.

End Outage.

(** A service that lists its entries and refuses every change. *)
Module ReadOnly.

Record t : Type := Make { entries : list dict }.

Definition fault : string := "An unspecified error occurred".

#[global] Instance client : Client t := {|
  client_get_rest_apis s := Answer (RestApis (entries s));
  client_create_rest_api _ s := (s, BotoCoreError fault);
  client_update_rest_api _ _ s := (s, BotoCoreError fault);
  client_delete_rest_api _ s := (s, BotoCoreError fault);
|}.

End ReadOnly.

(** An entry as the listing could return it without its name. *)
Definition nameless_api : dict := {[ "id" := PStr "e5" ]}.

(** * Properties *)

(** ** The lookup *)

Lemma filter_by_name_named id l :
  Forall has_name l → filter_by_name id l = Return (List.filter (named id) l).
Proof.
  induction 1 as [|r l [v Hv] _ IH]; simpl; [done|].
  rewrite Hv, IH. unfold named. rewrite Hv.
  destruct (decide (v = id)) as [->|Hne].
  - by rewrite bool_decide_eq_true_2.
  - rewrite bool_decide_eq_false_2; [done|]. by intros [= ->].
Qed.

Lemma filter_by_name_returns id l l' :
  filter_by_name id l = Return l' → Forall has_name l.
Proof.
  revert l'. induction l as [|r l IH]; intros l'; simpl; [constructor|].
  destruct (r !! "name") as [v|] eqn:Hv; [|done].
  destruct (filter_by_name id l) as [rest| |] eqn:Hrest; try done.
  intros _. constructor; [by exists v | by eapply IH].
Qed.

Lemma head_filter_find {A} (f : A → bool) (l : list A) :
  head (List.filter f l) = List.find f l.
Proof. induction l as [|x l IH]; simpl; [done|]. by destruct (f x). Qed.

Lemma first_match_Some id l r :
  first_match id l = Some r →
  ∃ l1 l2, l = l1 ++ r :: l2 ∧ r !! "name" = Some id
           ∧ Forall (λ x, x !! "name" ≠ Some id) l1.
Proof.
  unfold first_match. induction l as [|x l IH]; simpl; [done|].
  destruct (named id x) eqn:Hx.
  - intros [= ->]. exists [], l. split_and!; [done| |constructor].
    by apply bool_decide_eq_true in Hx.
  - intros Hr. destruct (IH Hr) as (l1 & l2 & -> & Hn & Hl1).
    exists (x :: l1), l2. split_and!; [done|done|].
    constructor; [|done]. by apply bool_decide_eq_false in Hx.
Qed.

Lemma first_match_None id l :
  first_match id l = None → Forall (λ x, x !! "name" ≠ Some id) l.
Proof.
  unfold first_match. induction l as [|x l IH]; simpl; [constructor|].
  destruct (named id x) eqn:Hx; [done|].
  intros Hr. constructor; [|by apply IH]. by apply bool_decide_eq_false in Hx.
Qed.

Lemma first_match_truthy id l r : first_match id l = Some r → truthy_api (Some r) = true.
Proof.
  intros (l1 & l2 & _ & Hn & _)%first_match_Some. simpl.
  apply negb_true_iff, bool_decide_eq_false. intros ->.
  by rewrite lookup_empty in Hn.
Qed.

Section Lookup.
Context {S : Type} `{Client S}.
Variable self : module.

Lemma retrieve_first_match (w : world S) l :
  client_get_rest_apis (remote w) = Answer (RestApis l) →
  Forall has_name l →
  _retrieve_rest_api self w
  = (World (remote w) (calls w ++ [get_rest_apis]),
     Return (first_match (get (params self) "name") l)).
Proof.
  intros Hl Hn. unfold _retrieve_rest_api, bind, call_get_rest_apis.
  rewrite Hl. simpl. rewrite (filter_by_name_named _ _ Hn).
  unfold first_match. rewrite <- head_filter_find.
  by destruct (List.filter _ l).
Qed.

End Lookup.

(** ** The reconciliation pass, branch by branch *)

Section Reconcile.
Context {S : Type} `{Client S}.

Lemma update_api_patch (self : module) id (w : world S) :
  check_mode self = false →
  bind (_update_api self id) (λ r, ret (ExitJson r.1 r.2)) (looked_up w)
  = mutate w (update_rest_api id (update_patch (params self)))
      "update_rest_api"
      (client_update_rest_api id (update_patch (params self)) (remote w)).
Proof.
  intros Hc. unfold _update_api, bind, call_update_rest_api, mutate,
    update_patch, looked_up. rewrite Hc. simpl.
  replace (if decide (get (params self) "description" = PNone)
           then PStr "" else get (params self) "description")
    with (or_empty (get (params self) "description"))
    by (by destruct (get (params self) "description")).
  destruct (client_update_rest_api _ _ _) as [s [a|e]]; simpl;
    by rewrite <- app_assoc.
Qed.

Lemma create_api_kwargs (self : module) (w : world S) :
  check_mode self = false →
  bind (_create_api self) (λ r, ret (ExitJson r.1 r.2)) (looked_up w)
  = mutate w (create_rest_api (create_kwargs self)) "create_rest_api"
      (client_create_rest_api (create_kwargs self) (remote w)).
Proof.
  intros Hc. unfold _create_api, bind, call_create_rest_api, mutate,
    looked_up. rewrite Hc. simpl.
  destruct (client_create_rest_api _ _) as [s [a|e]]; simpl;
    by rewrite <- app_assoc.
Qed.

Lemma maybe_delete_api_call (self : module) r (w : world S) :
  check_mode self = false →
  truthy_api (Some r) = true →
  bind (_maybe_delete_api self (Some r)) (λ r, ret (ExitJson r.1 r.2))
    (looked_up w)
  = mutate w (delete_rest_api (get r "id")) "delete_rest_api"
      (client_delete_rest_api (get r "id") (remote w)).
Proof.
  intros Hc Ht. unfold _maybe_delete_api, bind, call_delete_rest_api, mutate,
    looked_up. rewrite Ht, Hc. simpl.
  destruct (client_delete_rest_api _ _) as [s [a|e]]; simpl;
    by rewrite <- app_assoc.
Qed.

Lemma process_request_decision (self : module) (w : world S) l :
  client_get_rest_apis (remote w) = Answer (RestApis l) →
  Forall has_name l →
  process_request self w = decision self w l.
Proof.
  intros Hl Hn. unfold process_request, decision.
  unfold bind at 1. rewrite (retrieve_first_match self w l Hl Hn).
  fold (looked_up w).
  destruct (first_match _ l) as [r|] eqn:Hf.
  - pose proof (first_match_truthy _ _ _ Hf) as Ht.
    destruct (decide (_ = PStr "absent")).
    + destruct (check_mode self) eqn:Hc.
      * unfold _maybe_delete_api, bind. by rewrite Ht, Hc.
      * by apply maybe_delete_api_call.
    + unfold _create_or_update_api. rewrite Ht. simpl negb. cbv iota.
      destruct (_is_changed r (params self)); [|done].
      destruct (check_mode self) eqn:Hc.
      * unfold _update_api, bind. by rewrite Hc.
      * by apply update_api_patch.
  - destruct (decide (_ = PStr "absent")); [done|].
    unfold _create_or_update_api. simpl negb. cbv iota.
    destruct (check_mode self) eqn:Hc.
    + unfold _create_api, bind. by rewrite Hc.
    + by apply create_api_kwargs.
Qed.

End Reconcile.

(** ** Lookup and branch selection *)

Section Claims.
Context {S : Type} `{Client S}.

(** Every pass logs the listing first and at most one call after it. *)
Lemma process_request_calls (self : module) (w : world S) :
  ∃ cs, calls (process_request self w).1 = calls w ++ get_rest_apis :: cs
    ∧ (cs = []
       ∨ (check_mode self = false
          ∧ ((get (params self) "state" = PStr "absent"
              ∧ ∃ id, cs = [delete_rest_api id])
             ∨ (get (params self) "state" ≠ PStr "absent"
                ∧ ((cs = [create_rest_api (create_kwargs self)])
                   ∨ ∃ id, cs = [update_rest_api id
                                   (update_patch (params self))]))))).
Proof.
  unfold_pass.
  destruct (client_get_rest_apis (remote w)) as [[l]|e]; simpl;
    [|exists []; by rewrite ?app_nil_r; auto].
  destruct (filter_by_name _ l) as [[|r rest]| |]; simpl;
    try (exists []; by auto).
  - destruct (decide (_ = PStr "absent")) as [Hs|Hs]; simpl;
      [exists []; by auto|].
    destruct (check_mode self) eqn:Hc; simpl; [exists []; by auto|].
    exists [create_rest_api (create_kwargs self)].
    destruct (client_create_rest_api _ _) as [s [a|e]]; simpl;
      rewrite <- app_assoc; split; auto 10.
  - destruct (decide (_ = PStr "absent")) as [Hs|Hs]; simpl.
    + destruct (negb (bool_decide (r = ∅))); simpl; [|exists []; by auto].
      destruct (check_mode self) eqn:Hc; simpl; [exists []; by auto|].
      exists [delete_rest_api (get r "id")].
      destruct (client_delete_rest_api _ _) as [s [a|e]]; simpl;
        rewrite <- app_assoc; split; eauto 10.
    + destruct (negb (bool_decide (r = ∅))); simpl.
      * destruct (_is_changed r (params self)); simpl; [|exists []; by auto].
        destruct (check_mode self) eqn:Hc; simpl; [exists []; by auto|].
        exists [update_rest_api (get r "id") (update_patch (params self))].
        unfold update_patch.
        replace (or_empty (get (params self) "description"))
          with (if decide (get (params self) "description" = PNone)
                then PStr "" else get (params self) "description")
          by (by destruct (get (params self) "description")).
        destruct (client_update_rest_api _ _ _) as [s [a|e]]; simpl;
          rewrite <- app_assoc; split; eauto 10.
      * destruct (check_mode self) eqn:Hc; simpl; [exists []; by auto|].
        exists [create_rest_api (create_kwargs self)].
        destruct (client_create_rest_api _ _) as [s [a|e]]; simpl;
          rewrite <- app_assoc; split; auto 10.
Qed.

(** C9: for every remote collection whose entries carry the identifying
    attribute, the lookup returns the first entry in listing order whose
    name equals the desired name (whatever follows it, duplicates of the
    name included) and none when no entry has that name. *)
Theorem retrieve_rest_api_first_match (self : module) (w : world S) l :
  client_get_rest_apis (remote w) = Answer (RestApis l) →
  Forall has_name l →
  ∃ found,
    (_retrieve_rest_api self w).2 = Return found
    ∧ found = first_match (get (params self) "name") l
    ∧ match found with
      | Some r =>
          ∃ l1 l2, l = l1 ++ r :: l2
            ∧ r !! "name" = Some (get (params self) "name")
            ∧ Forall (λ x, x !! "name" ≠ Some (get (params self) "name")) l1
      | None =>
          Forall (λ x, x !! "name" ≠ Some (get (params self) "name")) l
      end.
Proof.
  intros Hl Hn. exists (first_match (get (params self) "name") l).
  rewrite (retrieve_first_match self w l Hl Hn). split_and!; [done..|].
  destruct (first_match _ l) as [r|] eqn:Hf.
  - by apply first_match_Some.
  - by apply first_match_None.
Qed.

(** C10: for every parameter bag, the pass takes the delete branch exactly
    when the state parameter is the string 'absent', and then issues no
    create or update call; with any other state value (a missing one, or
    one that is neither 'present' nor 'absent', included) it takes the
    create-or-update branch and issues no delete call. *)
Theorem process_request_branch (self : module) (w : world S) :
  (get (params self) "state" = PStr "absent" →
     process_request self w
     = bind (_retrieve_rest_api self)
         (λ api, bind (_maybe_delete_api self api)
                   (λ r, ret (ExitJson r.1 r.2))) w
     ∧ ∃ cs, calls (process_request self w).1 = calls w ++ cs
         ∧ Forall (λ c, is_create c = false ∧ is_update c = false) cs)
  ∧ (get (params self) "state" ≠ PStr "absent" →
     process_request self w
     = bind (_retrieve_rest_api self)
         (λ api, bind (_create_or_update_api self api)
                   (λ r, ret (ExitJson r.1 r.2))) w
     ∧ ∃ cs, calls (process_request self w).1 = calls w ++ cs
         ∧ Forall (λ c, is_delete c = false) cs).
Proof.
  destruct (process_request_calls self w) as (cs & Hcs & Hshape).
  split; intros Hs.
  - split; [unfold process_request; by destruct (decide _)|].
    exists (get_rest_apis :: cs). split; [done|].
    constructor; [done|].
    destruct Hshape as [->|[_ [[_ [id ->]]|[Hne _]]]];
      [constructor|by repeat constructor|done].
  - split; [unfold process_request; by destruct (decide _)|].
    exists (get_rest_apis :: cs). split; [done|].
    constructor; [done|].
    destruct Hshape as [->|[_ [[Habs _]|[_ [->|[id ->]]]]]];
      [constructor|done|by repeat constructor..].
Qed.

(** ** The four branches *)

Lemma create_kwargs_lookup (self : module) :
  create_kwargs self !! "name" = Some (get (params self) "name")
  ∧ create_kwargs self !! "description"
    = (if truthy (get (params self) "description")
       then Some (get (params self) "description") else None)
  ∧ ∀ k, k ≠ "name" → k ≠ "description" → create_kwargs self !! k = None.
Proof.
  unfold create_kwargs.
  destruct (truthy (get (params self) "description")); split_and!;
    try done; intros; by simplify_map_eq.
Qed.

(** C8: for every desired state with state 'absent' and no entry of that
    name in the listing, the pass exits with changed=false and no
    resource, having issued the listing call only; the remote state is
    untouched and nothing fails, whether or not check mode is set. *)
Theorem absent_without_match_is_noop (self : module) (w : world S) l :
  get (params self) "state" = PStr "absent" →
  client_get_rest_apis (remote w) = Answer (RestApis l) →
  Forall has_name l →
  first_match (get (params self) "name") l = None →
  process_request self w
  = (World (remote w) (calls w ++ [get_rest_apis]),
     Return (ExitJson false None)).
Proof.
  intros Hs Hl Hn Hf. rewrite (process_request_decision self w l Hl Hn).
  unfold decision. by rewrite Hf, decide_True.
Qed.

(** C5, as the code has it: with state 'absent' and a matching entry, the
    pass outside check mode issues exactly one delete call, for the id of
    that entry, and reports changed=true together with whatever the delete
    call answered (not the entry that was fetched); if the call raises,
    the pass fails naming delete_rest_api. *)
Theorem absent_with_match_deletes (self : module) (w : world S) l r :
  check_mode self = false →
  get (params self) "state" = PStr "absent" →
  client_get_rest_apis (remote w) = Answer (RestApis l) →
  Forall has_name l →
  first_match (get (params self) "name") l = Some r →
  let answer := client_delete_rest_api (get r "id") (remote w) in
  process_request self w
  = (World answer.1
       (calls w ++ [get_rest_apis; delete_rest_api (get r "id")]),
     report "delete_rest_api" answer.2).
Proof.
  intros Hc Hs Hl Hn Hf. simpl.
  rewrite (process_request_decision self w l Hl Hn).
  unfold decision. by rewrite Hf, Hc, decide_True.
Qed.

(** C7, as the code has it: with state 'present' and no matching entry,
    the pass outside check mode issues exactly one create call whose
    attributes are the name and, when it is provided and not the empty
    string, the description, and nothing else; it reports changed=true
    with the created resource, or fails naming create_rest_api if the
    call raises. *)
Theorem present_without_match_creates (self : module) (w : world S) l :
  check_mode self = false →
  get (params self) "state" = PStr "present" →
  client_get_rest_apis (remote w) = Answer (RestApis l) →
  Forall has_name l →
  first_match (get (params self) "name") l = None →
  ∃ kwargs : dict,
    kwargs !! "name" = Some (get (params self) "name")
    ∧ kwargs !! "description"
      = (if truthy (get (params self) "description")
         then Some (get (params self) "description") else None)
    ∧ (∀ k, k ≠ "name" → k ≠ "description" → kwargs !! k = None)
    ∧ let answer := client_create_rest_api kwargs (remote w) in
      process_request self w
      = (World answer.1 (calls w ++ [get_rest_apis; create_rest_api kwargs]),
         report "create_rest_api" answer.2).
Proof.
  intros Hc Hs Hl Hn Hf. exists (create_kwargs self).
  destruct (create_kwargs_lookup self) as (Hk1 & Hk2 & Hk3).
  split_and!; [done..|]. simpl.
  rewrite (process_request_decision self w l Hl Hn).
  unfold decision. rewrite Hf, Hc, Hs. by rewrite decide_False.
Qed.

(** C1, as the code has it: with state 'present' and a matching entry that
    differs in name or description, the pass outside check mode issues
    exactly one update call, for the id of that entry, whose patch
    replaces both tracked fields, /name by the desired name and
    /description by the desired description (the empty string when none
    is given), whether or not each of them differs; it reports
    changed=true with the answer, or fails naming update_rest_api. *)
Theorem present_with_differing_match_updates
    (self : module) (w : world S) l r :
  check_mode self = false →
  get (params self) "state" = PStr "present" →
  client_get_rest_apis (remote w) = Answer (RestApis l) →
  Forall has_name l →
  first_match (get (params self) "name") l = Some r →
  get r "name" ≠ get (params self) "name"
  ∨ get r "description" ≠ get (params self) "description" →
  let patch :=
    [ PatchOp "replace" "/name" (get (params self) "name");
      PatchOp "replace" "/description"
        (or_empty (get (params self) "description")) ] in
  let answer := client_update_rest_api (get r "id") patch (remote w) in
  process_request self w
  = (World answer.1
       (calls w ++ [get_rest_apis; update_rest_api (get r "id") patch]),
     report "update_rest_api" answer.2).
Proof.
  intros Hc Hs Hl Hn Hf Hd. simpl.
  rewrite (process_request_decision self w l Hl Hn).
  unfold decision. rewrite Hf, Hc, Hs. rewrite decide_False by done.
  assert (_is_changed r (params self) = true) as ->; [|done].
  unfold _is_changed. apply orb_true_iff.
  destruct Hd as [Hd|Hd]; [left|right];
    by apply negb_true_iff, bool_decide_eq_false.
Qed.

(** C2, as the code has it: in check mode the pass issues the listing call
    only, and reports: for the delete branch the entry as fetched (none
    when there is no match); for the create branch none; for the update
    branch none as well (not the entry that was fetched); for an entry
    that needs no change, that entry. *)
Theorem check_mode_reported_resource (self : module) (w : world S) l :
  check_mode self = true →
  client_get_rest_apis (remote w) = Answer (RestApis l) →
  Forall has_name l →
  let fetched := first_match (get (params self) "name") l in
  process_request self w
  = (World (remote w) (calls w ++ [get_rest_apis]),
     Return
       (if decide (get (params self) "state" = PStr "absent") then
          ExitJson (bool_decide (is_Some fetched)) fetched
        else
          match fetched with
          | None => ExitJson true None
          | Some r =>
              if _is_changed r (params self) then ExitJson true None
              else ExitJson false (Some r)
          end)).
Proof.
  intros Hc Hl Hn. simpl.
  rewrite (process_request_decision self w l Hl Hn).
  unfold decision. rewrite Hc.
  destruct (decide _), (first_match _ l) as [r|]; try done.
  by destruct (_is_changed r (params self)).
Qed.

(** C6: for every parameter bag and every remote state, the pass in check
    mode issues the listing call and nothing else and leaves the remote
    state as it was; and whenever the same invocation without check mode
    exits with some changed value, the check-mode pass exits with that
    same value (conversely, when the check-mode pass exits, the other one
    exits with the same changed value unless its mutating call raised). *)
Theorem check_mode_issues_nothing_and_predicts (p : dict) (w : world S) :
  let sim := process_request (AnsibleModule p true) w in
  let real := process_request (AnsibleModule p false) w in
  remote sim.1 = remote w
  ∧ calls sim.1 = calls w ++ [get_rest_apis]
  ∧ (∀ e, real.2 = Return e → ∃ e', sim.2 = Return e' ∧ changed e' = changed e)
  ∧ (∀ e', sim.2 = Return e' →
       (∃ e, real.2 = Return e ∧ changed e = changed e')
       ∨ (∃ msg, real.2 = FailJson msg)).
Proof.
  unfold_pass.
  destruct (client_get_rest_apis (remote w)) as [[l]|err]; simpl;
    [|by split_and!].
  destruct (filter_by_name _ l) as [[|r rest]| |]; simpl;
    try by split_and!.
  - destruct (decide (_ = PStr "absent")); simpl; [split_and!; eauto|].
    destruct (client_create_rest_api _ _) as [s [a|err]]; simpl;
      split_and!; try done; intros ? [= <-]; eauto.
  - destruct (negb (bool_decide (r = ∅))),
      (decide (_ = PStr "absent")); simpl.
    + destruct (client_delete_rest_api _ _) as [s [a|err]]; simpl;
        split_and!; try done; intros ? [= <-]; eauto.
    + destruct (_is_changed r p); simpl; [|split_and!; eauto].
      destruct (client_update_rest_api _ _ _) as [s [a|err]]; simpl;
        split_and!; try done; intros ? [= <-]; eauto.
    + split_and!; eauto.
    + destruct (client_create_rest_api _ _) as [s [a|err]]; simpl;
        split_and!; try done; intros ? [= <-]; eauto.
Qed.

End Claims.

(** ** The diff *)

(** C3, as the code has it: the diff compares, for the name and for the
    description, the value read from the remote resource with the value read
    from the desired state; an attribute absent on either side reads as
    none, and none differs from every string, the empty string included.
    It is true iff one of the two comparisons fails.  It agrees with the
    diff that reads an absent desired attribute as the empty string whenever
    the desired state gives both attributes. *)
Theorem is_changed_compares_raw_values (api params : dict) :
  (_is_changed api params = true
   ↔ get api "name" ≠ get params "name"
     ∨ get api "description" ≠ get params "description")
  ∧ (get params "name" ≠ PNone → get params "description" ≠ PNone →
     _is_changed api params = diff_spec api params).
Proof.
  split.
  - unfold _is_changed. rewrite orb_true_iff, !negb_true_iff.
    by rewrite !bool_decide_eq_false.
  - intros Hn Hd. unfold _is_changed, diff_spec.
    destruct (get params "name"), (get params "description"); done.
Qed.

Lemma is_changed_compares_raw_values_witness :
  _is_changed docs_v1 (desired (PStr "v2") (PStr "present"))
  = diff_spec docs_v1 (desired (PStr "v2") (PStr "present")).
Proof.
  apply (is_changed_compares_raw_values docs_v1
           (desired (PStr "v2") (PStr "present"))); vm_compute; discriminate.
Defined.

(** C3 fails as stated: a remote description that is the empty string
    differs, for the code, from a description that the desired state does
    not give, and a remote resource without description does not differ from
    it; the diff of the specification says the opposite in both cases. *)
Lemma is_changed_is_not_diff_spec :
  let remote_empty : dict :=
    {[ "id" := PStr "a1"; "name" := PStr "docs.example.io";
       "description" := PStr "" ]} in
  let remote_bare : dict :=
    {[ "id" := PStr "a1"; "name" := PStr "docs.example.io" ]} in
  let wanted := desired PNone (PStr "present") in
  wanted !! "description" = None
  ∧ _is_changed remote_empty wanted = true
  ∧ diff_spec remote_empty wanted = false
  ∧ _is_changed remote_bare wanted = false
  ∧ diff_spec remote_bare wanted = true.
Proof. by vm_compute. Qed.

(** ** The claims at concrete inputs *)

Lemma retrieve_rest_api_first_match_witness :
  ∃ found,
    (_retrieve_rest_api (AnsibleModule (desired PNone (PStr "present")) false)
       (remote_with [other_api; docs_v1; docs_copy])).2 = Return found
    ∧ found = Some docs_v1.
Proof.
  destruct (retrieve_rest_api_first_match
              (AnsibleModule (desired PNone (PStr "present")) false)
              (remote_with [other_api; docs_v1; docs_copy])
              [other_api; docs_v1; docs_copy])
    as (found & Hret & Hfound & _); [reflexivity|all_named|].
  exists found. split; [exact Hret|]. rewrite Hfound. vm_compute. reflexivity.
Defined.

Lemma process_request_branch_witness :
  ∃ cs,
    calls (process_request (AnsibleModule (desired PNone (PStr "Absent")) false)
             (remote_with [docs_v1])).1 = [] ++ cs
    ∧ Forall (λ c, is_delete c = false) cs.
Proof.
  apply (process_request_branch
           (AnsibleModule (desired PNone (PStr "Absent")) false)
           (remote_with [docs_v1])).
  vm_compute. discriminate.
Defined.

Lemma absent_without_match_is_noop_witness :
  process_request (AnsibleModule (desired PNone (PStr "absent")) false)
    (remote_with [other_api])
  = (World (Store.Make [other_api] 1) [get_rest_apis],
     Return (ExitJson false None)).
Proof.
  apply (absent_without_match_is_noop
           (AnsibleModule (desired PNone (PStr "absent")) false)
           (remote_with [other_api]) [other_api]);
    [reflexivity|reflexivity|all_named|vm_compute; reflexivity].
Defined.

Lemma absent_with_match_deletes_witness :
  process_request (AnsibleModule (desired PNone (PStr "absent")) false)
    (remote_with [other_api; docs_v1])
  = (World (Store.Make [other_api] 1)
       [get_rest_apis; delete_rest_api (PStr "c8888abcde")],
     Return (ExitJson true (Some ∅))).
Proof.
  etrans;
    [apply (absent_with_match_deletes
              (AnsibleModule (desired PNone (PStr "absent")) false)
              (remote_with [other_api; docs_v1]) [other_api; docs_v1] docs_v1);
     [reflexivity|reflexivity|reflexivity|all_named|vm_compute; reflexivity]
    |vm_compute; reflexivity].
Defined.

Lemma present_without_match_creates_witness :
  ∃ kwargs : dict,
    kwargs !! "name" = Some (PStr "docs.example.io")
    ∧ kwargs !! "description" = Some (PStr "v1")
    ∧ (process_request (AnsibleModule (desired (PStr "v1") (PStr "present")) false)
         (remote_with [other_api])).2
      = Return (ExitJson true (Some (<[ "id" := PStr "1" ]> kwargs))).
Proof.
  destruct (present_without_match_creates
              (AnsibleModule (desired (PStr "v1") (PStr "present")) false)
              (remote_with [other_api]) [other_api])
    as (kwargs & Hname & Hdescr & _ & Hrun);
    [reflexivity|reflexivity|reflexivity|all_named|vm_compute; reflexivity|].
  exists kwargs. split_and!; [exact Hname|exact Hdescr|].
  rewrite Hrun. reflexivity.
Defined.

Lemma present_with_differing_match_updates_witness :
  calls (process_request
           (AnsibleModule (desired (PStr "v2") (PStr "present")) false)
           (remote_with [docs_v1])).1
  = [ get_rest_apis;
      update_rest_api (PStr "c8888abcde")
        [ PatchOp "replace" "/name" (PStr "docs.example.io");
          PatchOp "replace" "/description" (PStr "v2") ] ].
Proof.
  rewrite (present_with_differing_match_updates
             (AnsibleModule (desired (PStr "v2") (PStr "present")) false)
             (remote_with [docs_v1]) [docs_v1] docs_v1);
    [reflexivity|reflexivity|reflexivity|reflexivity|all_named
    |vm_compute; reflexivity|right; vm_compute; discriminate].
Defined.

Lemma check_mode_reported_resource_witness :
  process_request (AnsibleModule (desired (PStr "v2") (PStr "present")) true)
    (remote_with [docs_v1])
  = (World (Store.Make [docs_v1] 1) [get_rest_apis],
     Return (ExitJson true None)).
Proof.
  rewrite (check_mode_reported_resource
             (AnsibleModule (desired (PStr "v2") (PStr "present")) true)
             (remote_with [docs_v1]) [docs_v1]);
    [reflexivity|reflexivity|reflexivity|all_named].
Defined.

Lemma check_mode_issues_nothing_and_predicts_witness :
  ∃ e', (process_request
           (AnsibleModule (desired (PStr "v2") (PStr "present")) true)
           (remote_with [docs_v1])).2 = Return e'
        ∧ changed e' = true.
Proof.
  apply (proj1 (proj2 (proj2
           (check_mode_issues_nothing_and_predicts
              (desired (PStr "v2") (PStr "present")) (remote_with [docs_v1]))))
           (ExitJson true
              (Some (<[ "description" := PStr "v2" ]> docs_v1)))).
  vm_compute. reflexivity.
Defined.

(** C1 fails as stated: the remote resource and the desired state have the
    same name and differ in the description only, yet the patch of the
    update call replaces /name as well; and in check mode no update call is
    issued at all. *)
Lemma update_patch_carries_unchanged_name :
  let p := desired (PStr "v2") (PStr "present") in
  get p "state" = PStr "present"
  ∧ first_match (get p "name") [docs_v1] = Some docs_v1
  ∧ get docs_v1 "name" = get p "name"
  ∧ get docs_v1 "description" ≠ get p "description"
  ∧ (∃ patch,
       calls (process_request (AnsibleModule p false) (remote_with [docs_v1])).1
       = [get_rest_apis; update_rest_api (PStr "c8888abcde") patch]
       ∧ forallb (patches_differing docs_v1 p) patch = false
       ∧ patch ≠ [PatchOp "replace" "/description" (PStr "v2")])
  ∧ calls (process_request (AnsibleModule p true) (remote_with [docs_v1])).1
    = [get_rest_apis].
Proof.
  split_and!; try (vm_compute; (reflexivity || discriminate)).
  eexists. split_and!; [vm_compute; reflexivity|vm_compute; reflexivity|].
  discriminate.
Qed.

(** C2 fails as stated: in check mode, on the update branch, the pass
    reports no resource, not the remote resource it fetched. *)
Lemma check_mode_update_reports_none :
  let p := desired (PStr "v2") (PStr "present") in
  first_match (get p "name") [docs_v1] = Some docs_v1
  ∧ _is_changed docs_v1 p = true
  ∧ ∃ reported,
      (process_request (AnsibleModule p true) (remote_with [docs_v1])).2
      = Return (ExitJson true reported)
      ∧ reported ≠ Some docs_v1.
Proof.
  split_and!; [vm_compute; reflexivity..|].
  exists None. split; [vm_compute; reflexivity|discriminate].
Qed.

(** C5 fails as stated: outside check mode the pass reports what the delete
    call answered (here the empty dictionary), not the entry it fetched
    before deleting. *)
Lemma delete_reports_answer_not_snapshot :
  let p := desired PNone (PStr "absent") in
  first_match (get p "name") [docs_v1] = Some docs_v1
  ∧ ∃ reported,
      process_request (AnsibleModule p false) (remote_with [docs_v1])
      = (World (Store.Make [] 1)
           [get_rest_apis; delete_rest_api (PStr "c8888abcde")],
         Return (ExitJson true reported))
      ∧ reported ≠ Some docs_v1.
Proof.
  split; [vm_compute; reflexivity|].
  exists (Some ∅). split; [vm_compute; reflexivity|].
  intros Heq. vm_compute in Heq. discriminate.
Qed.

(** C7 fails as stated: a description that is provided as the empty string
    is left out of the attributes of the create call. *)
Lemma create_omits_empty_description :
  let p := desired (PStr "") (PStr "present") in
  p !! "description" = Some (PStr "")
  ∧ first_match (get p "name") [other_api] = None
  ∧ ∃ kwargs : dict,
      calls (process_request (AnsibleModule p false) (remote_with [other_api])).1
      = [get_rest_apis; create_rest_api kwargs]
      ∧ kwargs !! "description" = None.
Proof.
  split_and!; [vm_compute; reflexivity..|].
  eexists. split; vm_compute; reflexivity.
Qed.

(** ** Two runs in succession *)

(** On the collection that stores what it is sent, a second run can report
    a change again in three ways: a description given as the empty string
    is left out by create and differs from the created resource ever after;
    a description that is not given is patched to the empty string, which
    differs from none; and of two entries with the same name each run
    deletes one. *)
Lemma second_run_changes_again :
  run_twice (AnsibleModule (desired (PStr "") (PStr "present")) false)
    (Store.Make [] 1) = (Some true, Some true)
  ∧ run_twice (AnsibleModule (desired PNone (PStr "present")) false)
      (Store.Make [docs_v1] 1) = (Some true, Some true)
  ∧ run_twice (AnsibleModule (desired PNone (PStr "absent")) false)
      (Store.Make [docs_v1; docs_copy] 1) = (Some true, Some true).
Proof. split_and!; vm_compute; reflexivity. Qed.

Section Idempotence.
Implicit Types (l : list dict) (r m : dict) (p : dict) (id : pyval).

Lemma find_is_Some {A} (f : A → bool) (l : list A) x :
  x ∈ l → f x = true → is_Some (List.find f l).
Proof.
  induction 1 as [x l|x y l _ IH]; intros Hx; simpl.
  - rewrite Hx. by eexists.
  - destruct (f y); [by eexists|by apply IH].
Qed.

Lemma first_match_elem id l m :
  first_match id l = Some m → m ∈ l ∧ m !! "name" = Some id.
Proof.
  intros (l1 & l2 & -> & Hn & _)%first_match_Some. split; [|done].
  apply elem_of_app. right. by left.
Qed.

Lemma has_id_own m : Store.has_id (get m "id") m = true.
Proof. by apply bool_decide_eq_true. Qed.

Lemma apply_update_patch p r :
  Store.apply_ops (update_patch p) r
  = <[ "description" := or_empty (get p "description") ]>
      (<[ "name" := get p "name" ]> r).
Proof. reflexivity. Qed.

Lemma process_request_returns_named {S} `{Client S}
    (self : module) (w : world S) l e :
  client_get_rest_apis (remote w) = Answer (RestApis l) →
  (process_request self w).2 = Return e →
  Forall has_name l.
Proof.
  intros Hl. unfold process_request, _retrieve_rest_api, bind at 1 2,
    call_get_rest_apis. rewrite Hl. simpl.
  destruct (filter_by_name _ l) as [rest| |] eqn:Hrest; simpl; try done.
  intros _. by eapply filter_by_name_returns.
Qed.

(** After create: the new entry is the first match and needs no change. *)
Lemma first_match_appended id l new :
  first_match id l = None → named id new = true →
  first_match id (l ++ [new]) = Some new.
Proof.
  unfold first_match. induction l as [|x l IH]; simpl; intros Hf Hn.
  - by rewrite Hn.
  - destruct (named id x); [done|by apply IH].
Qed.

Lemma is_changed_false api p :
  get api "name" = get p "name" →
  get api "description" = get p "description" →
  _is_changed api p = false.
Proof.
  intros Hn Hd. unfold _is_changed. by rewrite !bool_decide_eq_true_2.
Qed.

Lemma get_lookup (d : dict) k v : d !! k = Some v → get d k = v.
Proof. unfold get. by intros ->. Qed.

Lemma created_is_converged (self : module) (n : nat) :
  get (params self) "description" ≠ PStr "" →
  let new := <[ "id" := PStr (pretty n) ]> (create_kwargs self) in
  named (get (params self) "name") new = true
  ∧ _is_changed new (params self) = false.
Proof.
  intros Hd. destruct (create_kwargs_lookup self) as (Hk1 & Hk2 & _). simpl.
  assert ((<[ "id" := PStr (pretty n) ]> (create_kwargs self) : dict)
            !! "name" = Some (get (params self) "name")) as Hname
    by by rewrite lookup_insert_ne.
  split; [by apply bool_decide_eq_true|].
  apply is_changed_false; [by apply get_lookup|].
  unfold get at 1. rewrite lookup_insert_ne, Hk2 by done.
  destruct (get (params self) "description") as [|d]; [done|]. simpl.
  destruct (decide (d = "")) as [->|Hne]; [done|].
  by rewrite bool_decide_eq_false_2.
Qed.

(** After update: the first match is a patched entry. *)
Lemma first_match_patched p l m :
  first_match (get p "name") l = Some m →
  ∃ r0, first_match (get p "name")
          (Store.patch_entry (get m "id") (update_patch p) <$> l)
        = Some (Store.apply_ops (update_patch p) r0).
Proof.
  assert (∀ x, named (get p "name") (Store.apply_ops (update_patch p) x)
               = true) as Hpatched.
  { intros x. rewrite apply_update_patch. apply bool_decide_eq_true.
    by rewrite lookup_insert_ne, lookup_insert_eq. }
  unfold first_match. induction l as [|x l IH]; [done|].
  rewrite fmap_cons. cbn [List.find].
  destruct (named (get p "name") x) eqn:Hx.
  - intros [= ->]. exists m.
    replace (Store.patch_entry (get m "id") (update_patch p) m)
      with (Store.apply_ops (update_patch p) m)
      by (unfold Store.patch_entry; by rewrite has_id_own).
    by rewrite Hpatched.
  - intros Hm. destruct (Store.has_id (get m "id") x) eqn:Hid.
    + exists x.
      replace (Store.patch_entry (get m "id") (update_patch p) x)
        with (Store.apply_ops (update_patch p) x)
        by (unfold Store.patch_entry; by rewrite Hid).
      by rewrite Hpatched.
    + replace (Store.patch_entry (get m "id") (update_patch p) x) with x
        by (unfold Store.patch_entry; by rewrite Hid).
      rewrite Hx. by apply IH.
Qed.

Lemma patched_is_converged p r0 :
  get p "description" ≠ PNone →
  _is_changed (Store.apply_ops (update_patch p) r0) p = false.
Proof.
  intros Hd. rewrite apply_update_patch.
  apply is_changed_false; apply get_lookup.
  - by rewrite lookup_insert_ne, lookup_insert_eq.
  - rewrite lookup_insert_eq. by destruct (get p "description").
Qed.

Lemma patched_has_name id p r :
  has_name r → has_name (Store.patch_entry id (update_patch p) r).
Proof.
  intros Hr. unfold Store.patch_entry.
  destruct (Store.has_id id r); [|done].
  rewrite apply_update_patch. unfold has_name.
  rewrite lookup_insert_ne, lookup_insert_eq by done. by eexists.
Qed.

(** After delete: with at most one entry of the name, none is left. *)
Lemma first_match_filtered_none id (g : dict → bool) l :
  List.filter (named id) l = [] → first_match id (List.filter g l) = None.
Proof.
  unfold first_match. induction l as [|x l IH]; simpl; [done|].
  destruct (named id x) eqn:Hx; [done|]. intros Hl.
  destruct (g x); simpl; [rewrite Hx|]; by apply IH.
Qed.

Lemma first_match_deleted id l m :
  (length (List.filter (named id) l) ≤ 1)%nat →
  first_match id l = Some m →
  first_match id
    (List.filter (λ r, negb (Store.has_id (get m "id") r)) l) = None.
Proof.
  unfold first_match at 1. induction l as [|x l IH]; simpl; [done|].
  destruct (named id x) eqn:Hx; simpl.
  - intros Hlen [= ->]. rewrite has_id_own. simpl.
    apply first_match_filtered_none.
    destruct (List.filter (named id) l); [done|simpl in Hlen; lia].
  - intros Hlen Hm.
    destruct (negb (Store.has_id (get m "id") x)); simpl.
    + unfold first_match. simpl. rewrite Hx. by apply IH.
    + by apply IH.
Qed.

End Idempotence.

Lemma Forall_list_filter {A} (P : A → Prop) (g : A → bool) (l : list A) :
  Forall P l → Forall P (List.filter g l).
Proof.
  induction 1 as [|x l Hx _ IH]; simpl; [constructor|].
  destruct (g x); [by constructor|done].
Qed.

Lemma store_run_decision (self : module) (s : Store.t) :
  Forall has_name (Store.entries s) →
  process_request self (World s []) = decision self (World s []) (Store.entries s).
Proof. intros Hn. by apply process_request_decision. Qed.

Lemma store_run_named (self : module) (s : Store.t) e :
  (process_request self (World s [])).2 = Return e →
  Forall has_name (Store.entries s).
Proof. by apply process_request_returns_named. Qed.

Lemma create_kwargs_empty_description (p : dict) (c : bool) :
  get p "description" = PStr "" →
  create_kwargs (AnsibleModule p c) = {[ "name" := get p "name" ]}.
Proof. intros Hd. unfold create_kwargs. simpl. by rewrite Hd. Qed.

Lemma report_never_unchanged (operation : string) (r : reply dict) :
  changed_of (report operation r) ≠ Some false.
Proof. by destruct r. Qed.

(** C4 does not hold of the code when the description is given as the empty
    string.  For every client: with a state other than 'absent', no entry
    of the name listed, and a create call that answers and takes effect
    (the resource is listed afterwards with the attributes the call
    carried), the first run creates and reports changed=true, and the
    second run, on the state the first left, finds that resource, issues an
    update call that replaces /description by the empty string, and so
    never reports changed=false.  The create call leaves the empty
    description out, the update call sends it, and the diff tells it from
    the missing one. *)
Theorem empty_description_changes_twice {S : Type} `{Client S}
    (p : dict) (s s1 : S) (l l1 : list dict) (a r : dict) :
  let self := AnsibleModule p false in
  let kwargs : dict := {[ "name" := get p "name" ]} in
  get p "state" ≠ PStr "absent" →
  get p "description" = PStr "" →
  client_get_rest_apis s = Answer (RestApis l) →
  Forall has_name l →
  first_match (get p "name") l = None →
  client_create_rest_api kwargs s = (s1, Answer a) →
  client_get_rest_apis s1 = Answer (RestApis l1) →
  Forall has_name l1 →
  first_match (get p "name") l1 = Some r →
  get r "description" = get kwargs "description" →
  run self s
  = (World s1 [get_rest_apis; create_rest_api kwargs],
     Return (ExitJson true (Some a)))
  ∧ calls (run self (remote (run self s).1)).1
    = [ get_rest_apis;
        update_rest_api (get r "id")
          [ PatchOp "replace" "/name" (get p "name");
            PatchOp "replace" "/description" (PStr "") ] ]
  ∧ changed_of (run self (remote (run self s).1)).2 ≠ Some false.
Proof.
  intros self kwargs Hs Hd Hl Hn Hf Hc Hl1 Hn1 Hf1 Hr.
  assert (create_kwargs self = kwargs) as Hk
    by by apply create_kwargs_empty_description.
  assert (update_patch p
          = [ PatchOp "replace" "/name" (get p "name");
              PatchOp "replace" "/description" (PStr "") ]) as Hpatch
    by (unfold update_patch; by rewrite Hd).
  assert (_is_changed r p = true) as Hdiff.
  { unfold _is_changed. rewrite Hr, Hd. apply orb_true_iff. right.
    by vm_compute. }
  assert (run self s
          = (World s1 [get_rest_apis; create_rest_api kwargs],
             Return (ExitJson true (Some a)))) as Hfirst.
  { unfold run. rewrite (process_request_decision self (World s []) l Hl Hn).
    unfold decision. cbn [params check_mode self remote calls].
    rewrite Hf, decide_False, Hk by done.
    unfold mutate. cbn [remote calls]. by rewrite Hc. }
  split; [done|]. rewrite Hfirst. cbn [fst remote].
  unfold run. rewrite (process_request_decision self (World s1 []) l1 Hl1 Hn1).
  unfold decision. cbn [params check_mode self remote calls].
  rewrite Hf1, decide_False, Hdiff, Hpatch by done.
  unfold mutate. cbn [fst snd remote calls].
  split; [done|]. apply report_never_unchanged.
Qed.

Lemma empty_description_changes_twice_witness :
  run (AnsibleModule (desired (PStr "") (PStr "present")) false)
    (Store.Make [] 1)
  = (World (Store.Make
              [ <[ "id" := PStr "1" ]>
                  ({[ "name" := PStr "docs.example.io" ]} : dict) ] 2)
       [ get_rest_apis;
         create_rest_api {[ "name" := PStr "docs.example.io" ]} ],
     Return
       (ExitJson true
          (Some (<[ "id" := PStr "1" ]>
                   ({[ "name" := PStr "docs.example.io" ]} : dict)))))
  ∧ changed_of
      (run (AnsibleModule (desired (PStr "") (PStr "present")) false)
         (remote (run (AnsibleModule (desired (PStr "") (PStr "present")) false)
                    (Store.Make [] 1)).1)).2 ≠ Some false.
Proof.
  destruct (empty_description_changes_twice
              (desired (PStr "") (PStr "present"))
              (Store.Make [] 1)
              (Store.Make
                 [ <[ "id" := PStr "1" ]>
                     ({[ "name" := PStr "docs.example.io" ]} : dict) ] 2)
              []
              [ <[ "id" := PStr "1" ]>
                  ({[ "name" := PStr "docs.example.io" ]} : dict) ]
              (<[ "id" := PStr "1" ]>
                 ({[ "name" := PStr "docs.example.io" ]} : dict))
              (<[ "id" := PStr "1" ]>
                 ({[ "name" := PStr "docs.example.io" ]} : dict)))
    as (Hfirst & _ & Hsecond);
    [vm_compute; discriminate|reflexivity|reflexivity|constructor
    |reflexivity|vm_compute; reflexivity|reflexivity|all_named
    |vm_compute; reflexivity|vm_compute; reflexivity|].
  split; [|exact Hsecond].
  etrans; [exact Hfirst|vm_compute; reflexivity].
Defined.

(** * Further properties of the pass *)

Lemma filter_by_name_unnamed id l :
  Exists (λ r : dict, r !! "name" = None) l →
  filter_by_name id l = Uncaught "KeyError: 'name'".
Proof.
  induction 1 as [r l Hr|r l _ IH]; simpl.
  - by rewrite Hr.
  - destruct (r !! "name"); [by rewrite IH|done].
Qed.

Lemma filter_by_name_no_fail_json id l msg :
  filter_by_name id l ≠ FailJson msg.
Proof.
  induction l as [|r l IH]; simpl; [done|].
  destruct (r !! "name"); [|done].
  by destruct (filter_by_name id l).
Qed.

Section Further.
Context {S : Type} `{Client S}.

(** X1: when the listing call raises, the pass ends through fail_json with
    the message that names get_rest_apis and carries the fault text; the
    listing is the only call made and the remote state is untouched,
    whatever the state parameter and the check-mode flag. *)
Theorem listing_fault_is_fatal (self : module) (w : world S) e :
  client_get_rest_apis (remote w) = BotoCoreError e →
  process_request self w
  = (World (remote w) (calls w ++ [get_rest_apis]),
     FailJson
       ("Encountered fatal error calling boto3 get_rest_apis function: " +:+ e)).
Proof. intros He. unfold_pass. by rewrite He. Qed.

(** X2: when some listed entry has no 'name', the pass ends with an
    uncaught KeyError, not through fail_json and not with a result, even if
    an entry of the desired name is listed before it; the listing is the
    only call made. *)
Theorem unnamed_entry_raises_key_error (self : module) (w : world S) l :
  client_get_rest_apis (remote w) = Answer (RestApis l) →
  Exists (λ r : dict, r !! "name" = None) l →
  process_request self w
  = (World (remote w) (calls w ++ [get_rest_apis]),
     Uncaught "KeyError: 'name'").
Proof.
  intros Hl Hex. unfold_pass. rewrite Hl. simpl.
  by rewrite (filter_by_name_unnamed _ _ Hex).
Qed.

(** X3: with a state other than 'absent' and a matching entry whose
    description equals the desired one, the pass makes no mutating call and
    exits with changed=false and the entry as fetched, in check mode or
    not. *)
Theorem present_with_identical_match_is_noop
    (self : module) (w : world S) l r :
  get (params self) "state" ≠ PStr "absent" →
  client_get_rest_apis (remote w) = Answer (RestApis l) →
  Forall has_name l →
  first_match (get (params self) "name") l = Some r →
  get r "description" = get (params self) "description" →
  process_request self w
  = (World (remote w) (calls w ++ [get_rest_apis]),
     Return (ExitJson false (Some r))).
Proof.
  intros Hs Hl Hn Hf Hd. rewrite (process_request_decision self w l Hl Hn).
  unfold decision. rewrite Hf, decide_False by done.
  assert (_is_changed r (params self) = false) as ->; [|done].
  apply first_match_Some in Hf as (_ & _ & _ & Hname & _).
  apply is_changed_false; [by apply get_lookup|done].
Qed.

(** X4: an entry found by the lookup always has the desired name, so for it
    the diff reduces to the comparison of the descriptions: within a pass
    an update is triggered by the description alone, and the /name patch
    never renames. *)
Theorem matched_entry_differs_by_description_only (p : dict) l r :
  first_match (get p "name") l = Some r →
  get r "name" = get p "name"
  ∧ _is_changed r p
    = negb (bool_decide (get r "description" = get p "description")).
Proof.
  intros (_ & _ & _ & Hname & _)%first_match_Some.
  assert (get r "name" = get p "name") as Heq by by apply get_lookup.
  split; [done|]. unfold _is_changed. rewrite Heq.
  by rewrite bool_decide_eq_true_2.
Qed.

(** X5: every pass, on every input and whatever the client answers, makes
    the listing call first and after it at most one call, which is a
    create, an update or a delete: never two changes, never a retry. *)
Theorem pass_issues_at_most_one_mutation (self : module) (w : world S) :
  ∃ cs, calls (process_request self w).1 = calls w ++ get_rest_apis :: cs
        ∧ (length cs ≤ 1)%nat
        ∧ Forall (λ c, mutating c = true) cs.
Proof.
  destruct (process_request_calls self w) as (cs & Hcs & Hshape).
  exists cs. split; [done|].
  destruct Hshape as [->|[_ [[_ [id ->]]|[_ [->|[id ->]]]]]]; simpl;
    split; try lia; by repeat constructor.
Qed.

(** X6: the changed flag tells whether a change was made.  A pass that
    exits with changed=false made the listing call only and left the remote
    state alone; outside check mode a pass that exits with changed=true made
    exactly one mutating call after the listing, the call answered, the
    remote state is the one that call left, and the resource reported is
    the very answer of that call. *)
Theorem changed_flag_tells_mutation (self : module) (w : world S) e :
  (process_request self w).2 = Return e →
  (changed e = false →
     process_request self w
     = (World (remote w) (calls w ++ [get_rest_apis]), Return e))
  ∧ (check_mode self = false → changed e = true →
       ∃ c s' a,
         process_request self w
         = (World s' (calls w ++ [get_rest_apis; c]),
            Return (ExitJson true (Some a)))
         ∧ mutating c = true
         ∧ perform c (remote w) = Some (s', Answer a)).
Proof.
  unfold_pass.
  destruct (client_get_rest_apis (remote w)) as [[l]|err]; simpl; [|done].
  destruct (filter_by_name _ l) as [[|r rest]| |]; simpl; try done;
    destruct (decide (_ = PStr "absent")); simpl;
    try destruct (negb (bool_decide (r = ∅))); simpl;
    try destruct (_is_changed r (params self)); simpl;
    destruct (check_mode self); simpl;
    try destruct (client_create_rest_api _ _) as [s [a|err]] eqn:Hcall; simpl;
    try destruct (client_delete_rest_api _ _) as [s [a|err]] eqn:Hcall; simpl;
    try destruct (client_update_rest_api _ _ _) as [s [a|err]] eqn:Hcall;
    simpl; try done;
    intros [= <-]; simpl; (split; [done|]); try done; intros _ _;
    eexists _, s, a;
    (split_and!; [by rewrite <- app_assoc|done|exact (f_equal Some Hcall)]).
Qed.

(** X7: when a pass ends through fail_json, the message names the boto3
    function of the last call made, in the module's fixed wording; in check
    mode that call can only be the listing. *)
Theorem failure_names_last_call (self : module) (w : world S) msg :
  (process_request self w).2 = FailJson msg →
  ∃ c e,
    last (calls (process_request self w).1) = Some c
    ∧ msg = "Encountered fatal error calling boto3 " +:+ operation_of c
              +:+ " function: " +:+ e
    ∧ (check_mode self = true → c = get_rest_apis).
Proof.
  unfold_pass.
  destruct (client_get_rest_apis (remote w)) as [[l]|err]; simpl.
  2:{ intros [= <-]. exists get_rest_apis, err. by rewrite last_snoc. }
  pose proof (filter_by_name_no_fail_json (get (params self) "name") l) as Hno.
  destruct (filter_by_name _ l) as [[|r rest]|msg0|]; simpl; try done;
    [| |by destruct (Hno msg0)];
    destruct (decide (_ = PStr "absent")); simpl;
    try destruct (negb (bool_decide (r = ∅))); simpl;
    try destruct (_is_changed r (params self)); simpl;
    destruct (check_mode self); simpl;
    try destruct (client_create_rest_api _ _) as [s [a|err]]; simpl;
    try destruct (client_delete_rest_api _ _) as [s [a|err]]; simpl;
    try destruct (client_update_rest_api _ _ _) as [s [a|err]]; simpl;
    try done;
    intros [= <-]; eexists _, err; rewrite last_snoc; by split_and!.
Qed.

(** X8: whatever the listing holds, an entry that the lookup returns carries
    the desired name; in particular it is never the empty dictionary, so the
    truth tests of the two branches never take a found entry for a missing
    one. *)
Theorem retrieve_returns_named_entry (self : module) (w : world S) r :
  (_retrieve_rest_api self w).2 = Return (Some r) →
  r !! "name" = Some (get (params self) "name")
  ∧ truthy_api (Some r) = true.
Proof.
  unfold _retrieve_rest_api, bind, call_get_rest_apis. simpl.
  destruct (client_get_rest_apis (remote w)) as [[l]|err]; simpl; [|done].
  destruct (filter_by_name _ l) as [found| |] eqn:Hfound; simpl; try done.
  pose proof (filter_by_name_returns _ _ _ Hfound) as Hn.
  rewrite (filter_by_name_named _ _ Hn) in Hfound.
  injection Hfound as <-.
  pose proof (head_filter_find (named (get (params self) "name")) l) as Hhead.
  destruct (List.filter _ l) as [|r0 rest]; simpl; [done|].
  intros [= ->]. simpl in Hhead. symmetry in Hhead.
  split; [|by eapply first_match_truthy].
  by apply first_match_Some in Hhead as (_ & _ & _ & Hname & _).
Qed.

(** X10: the description the module hands to the service is never None.  A
    create call carries the description exactly when it is a non-empty
    string, and then that string; the /description patch of an update call
    carries the given description, and the empty string when none is
    given. *)
Theorem description_sent_is_never_none (self : module) (w : world S) cs :
  calls (process_request self w).1 = calls w ++ cs →
  Forall
    (λ c,
       description_sent c ≠ Some PNone
       ∧ (is_create c = true →
            description_sent c
            = if truthy (get (params self) "description")
              then Some (get (params self) "description") else None)
       ∧ (is_update c = true →
            description_sent c
            = Some (match get (params self) "description" with
                    | PNone => PStr ""
                    | PStr d => PStr d
                    end)))
    cs.
Proof.
  destruct (process_request_calls self w) as (cs0 & -> & Hshape).
  intros <-%app_inv_head. constructor; [done|].
  destruct (create_kwargs_lookup self) as (_ & Hdescr & _).
  assert (description_sent (create_rest_api (create_kwargs self)) ≠ Some PNone)
    as Hc.
  { simpl. rewrite Hdescr.
    by destruct (get (params self) "description") as [|d]; simpl;
      [|destruct (negb (bool_decide (d = "")))]. }
  destruct Hshape as [->|[_ [[_ [id ->]]|[_ [->|[id ->]]]]]];
    repeat constructor; try done;
    simpl; by destruct (get (params self) "description").
Qed.

End Further.

(** X9: the diff reads the name and the description only: setting any other
    attribute, of the remote resource or of the parameters, leaves its
    answer as it was. *)
Theorem is_changed_ignores_untracked (api p : dict) (k : string) (v : pyval) :
  k ≠ "name" → k ≠ "description" →
  _is_changed (<[ k := v ]> api) p = _is_changed api p
  ∧ _is_changed api (<[ k := v ]> p) = _is_changed api p.
Proof.
  intros Hn Hd. unfold _is_changed, get. by rewrite !lookup_insert_ne.
Qed.

(** ** The pass against a remote collection whose calls take effect *)

Lemma is_changed_false_inv (api p : dict) :
  _is_changed api p = false →
  get api "name" = get p "name"
  ∧ get api "description" = get p "description".
Proof.
  unfold _is_changed. intros [Hn Hd]%orb_false_iff.
  apply negb_false_iff, bool_decide_eq_true in Hn.
  by apply negb_false_iff, bool_decide_eq_true in Hd.
Qed.

(** X12: against such a collection, a pass outside check mode with a state
    other than 'absent' and a non-empty description, if it exits, leaves a
    collection in which the lookup finds an entry with the desired name and
    the desired description, whether it created, updated or changed
    nothing. *)
Theorem present_run_converges (p : dict) (s : Store.t) e :
  get p "state" ≠ PStr "absent" →
  truthy (get p "description") = true →
  (run (AnsibleModule p false) s).2 = Return e →
  ∃ r, first_match (get p "name")
         (Store.entries (remote (run (AnsibleModule p false) s).1)) = Some r
       ∧ get r "name" = get p "name"
       ∧ get r "description" = get p "description".
Proof.
  intros Hs Hd. unfold run. set (self := AnsibleModule p false). intros Hrun.
  assert (get p "description" ≠ PNone ∧ get p "description" ≠ PStr "")
    as [Hd1 Hd2] by (by destruct (get p "description") as [|[|]]).
  pose proof (store_run_named self s e Hrun) as Hnamed.
  cut (∃ r, first_match (get p "name")
              (Store.entries (remote (process_request self (World s [])).1))
            = Some r ∧ _is_changed r p = false).
  { intros (r & Hr & Hsame). exists r. split; [done|].
    by apply is_changed_false_inv. }
  clear Hrun. rewrite (store_run_decision self s Hnamed).
  unfold decision. simpl. rewrite decide_False by done.
  destruct (first_match _ (Store.entries s)) as [m|] eqn:Hfound; simpl.
  - destruct (_is_changed m p) eqn:Hdiff; simpl; [|by exists m].
    destruct (first_match_elem _ _ _ Hfound) as [Hin _].
    unfold Store.update.
    destruct (find_is_Some _ _ _ Hin (has_id_own m)) as [m' ->]. simpl.
    destruct (first_match_patched p _ m Hfound) as [r0 Hr0].
    eexists. split; [exact Hr0|]. by apply patched_is_converged.
  - destruct (created_is_converged self (Store.next_id s) Hd2)
      as [Hnew Hsame].
    eexists. split; [by apply first_match_appended|done].
Qed.

(** X13: against such a collection in which at most one entry carries the
    desired name, a pass outside check mode with state 'absent', if it
    exits, leaves a collection in which the lookup finds nothing. *)
Theorem absent_run_removes (p : dict) (s : Store.t) e :
  get p "state" = PStr "absent" →
  (length (List.filter (named (get p "name")) (Store.entries s)) ≤ 1)%nat →
  (run (AnsibleModule p false) s).2 = Return e →
  first_match (get p "name")
    (Store.entries (remote (run (AnsibleModule p false) s).1)) = None.
Proof.
  intros Hs Hone. unfold run. set (self := AnsibleModule p false). intros Hrun.
  pose proof (store_run_named self s e Hrun) as Hnamed.
  clear Hrun. rewrite (store_run_decision self s Hnamed).
  unfold decision. simpl. rewrite decide_True by done.
  destruct (first_match _ (Store.entries s)) as [m|] eqn:Hfound; simpl;
    [|done].
  destruct (first_match_elem _ _ _ Hfound) as [Hin _].
  unfold Store.delete.
  destruct (find_is_Some _ _ _ Hin (has_id_own m)) as [m' ->]. simpl.
  by apply first_match_deleted.
Qed.

(** ** The further properties at concrete inputs *)

Lemma listing_fault_is_fatal_witness :
  process_request (AnsibleModule (desired PNone (PStr "absent")) false)
    (World Outage.Down [])
  = (World Outage.Down [get_rest_apis],
     FailJson
       "Encountered fatal error calling boto3 get_rest_apis function: An unspecified error occurred").
Proof.
  etrans;
    [apply (listing_fault_is_fatal
              (AnsibleModule (desired PNone (PStr "absent")) false)
              (World Outage.Down []) Outage.fault); reflexivity
    |reflexivity].
Defined.

Lemma unnamed_entry_raises_key_error_witness :
  process_request (AnsibleModule (desired PNone (PStr "present")) false)
    (remote_with [docs_v1; nameless_api])
  = (World (Store.Make [docs_v1; nameless_api] 1) [get_rest_apis],
     Uncaught "KeyError: 'name'").
Proof.
  apply (unnamed_entry_raises_key_error
           (AnsibleModule (desired PNone (PStr "present")) false)
           (remote_with [docs_v1; nameless_api]) [docs_v1; nameless_api]);
    [reflexivity|].
  apply Exists_cons_tl, Exists_cons_hd. vm_compute. reflexivity.
Defined.

Lemma present_with_identical_match_is_noop_witness :
  process_request (AnsibleModule (desired (PStr "v1") (PStr "present")) false)
    (remote_with [other_api; docs_v1])
  = (World (Store.Make [other_api; docs_v1] 1) [get_rest_apis],
     Return (ExitJson false (Some docs_v1))).
Proof.
  apply (present_with_identical_match_is_noop
           (AnsibleModule (desired (PStr "v1") (PStr "present")) false)
           (remote_with [other_api; docs_v1]) [other_api; docs_v1] docs_v1);
    [vm_compute; discriminate|reflexivity|all_named
    |vm_compute; reflexivity|vm_compute; reflexivity].
Defined.

Lemma matched_entry_differs_by_description_only_witness :
  get docs_v1 "name" = get (desired (PStr "v2") (PStr "present")) "name"
  ∧ _is_changed docs_v1 (desired (PStr "v2") (PStr "present"))
    = negb (bool_decide
              (get docs_v1 "description"
               = get (desired (PStr "v2") (PStr "present")) "description")).
Proof.
  apply (matched_entry_differs_by_description_only
           (desired (PStr "v2") (PStr "present")) [other_api; docs_v1] docs_v1).
  vm_compute. reflexivity.
Defined.

Lemma changed_flag_tells_mutation_witness :
  ∃ c s' a,
    process_request
      (AnsibleModule (desired (PStr "v2") (PStr "present")) false)
      (remote_with [docs_v1])
    = (World s' ([] ++ [get_rest_apis; c]), Return (ExitJson true (Some a)))
    ∧ mutating c = true
    ∧ perform c (Store.Make [docs_v1] 1) = Some (s', Answer a).
Proof.
  refine (proj2 (changed_flag_tells_mutation
                   (AnsibleModule (desired (PStr "v2") (PStr "present")) false)
                   (remote_with [docs_v1])
                   (ExitJson true
                      (Some (<[ "description" := PStr "v2" ]> docs_v1))) _)
            _ _);
    [vm_compute; reflexivity|reflexivity|reflexivity].
Defined.

Lemma failure_names_last_call_witness :
  ∃ c e,
    last (calls (process_request
                   (AnsibleModule (desired (PStr "v1") (PStr "present")) false)
                   (World (ReadOnly.Make [other_api]) [])).1) = Some c
    ∧ "Encountered fatal error calling boto3 create_rest_api function: An unspecified error occurred"
      = "Encountered fatal error calling boto3 " +:+ operation_of c
          +:+ " function: " +:+ e
    ∧ (false = true → c = get_rest_apis).
Proof.
  apply (failure_names_last_call
           (AnsibleModule (desired (PStr "v1") (PStr "present")) false)
           (World (ReadOnly.Make [other_api]) [])).
  vm_compute. reflexivity.
Defined.

Lemma retrieve_returns_named_entry_witness :
  docs_v1 !! "name" = Some (PStr "docs.example.io")
  ∧ truthy_api (Some docs_v1) = true.
Proof.
  apply (retrieve_returns_named_entry
           (AnsibleModule (desired PNone (PStr "absent")) true)
           (remote_with [other_api; docs_v1; docs_copy]) docs_v1).
  vm_compute. reflexivity.
Defined.

Lemma is_changed_ignores_untracked_witness :
  _is_changed (<[ "id" := PStr "zz" ]> docs_v1)
    (desired (PStr "v1") (PStr "present"))
  = _is_changed docs_v1 (desired (PStr "v1") (PStr "present"))
  ∧ _is_changed docs_v1
      (<[ "id" := PStr "zz" ]> (desired (PStr "v1") (PStr "present")))
    = _is_changed docs_v1 (desired (PStr "v1") (PStr "present")).
Proof.
  apply (is_changed_ignores_untracked docs_v1
           (desired (PStr "v1") (PStr "present")) "id" (PStr "zz"));
    discriminate.
Defined.

Lemma description_sent_is_never_none_witness :
  Forall
    (λ c,
       description_sent c ≠ Some PNone
       ∧ (is_create c = true → description_sent c = None)
       ∧ (is_update c = true → description_sent c = Some (PStr "")))
    [ get_rest_apis;
      update_rest_api (PStr "c8888abcde")
        [ PatchOp "replace" "/name" (PStr "docs.example.io");
          PatchOp "replace" "/description" (PStr "") ] ].
Proof.
  apply (description_sent_is_never_none
           (AnsibleModule (desired PNone (PStr "present")) false)
           (remote_with [docs_v1])).
  vm_compute. reflexivity.
Defined.

Lemma present_run_converges_witness :
  ∃ r, first_match (PStr "docs.example.io")
         (Store.entries
            (remote (run (AnsibleModule (desired (PStr "v2") (PStr "present"))
                            false)
                       (Store.Make [other_api; docs_v1] 1)).1)) = Some r
       ∧ get r "name" = PStr "docs.example.io"
       ∧ get r "description" = PStr "v2".
Proof.
  apply (present_run_converges (desired (PStr "v2") (PStr "present"))
           (Store.Make [other_api; docs_v1] 1)
           (ExitJson true (Some (<[ "description" := PStr "v2" ]> docs_v1))));
    [vm_compute; discriminate|reflexivity|vm_compute; reflexivity].
Defined.

Lemma absent_run_removes_witness :
  first_match (PStr "docs.example.io")
    (Store.entries
       (remote (run (AnsibleModule (desired PNone (PStr "absent")) false)
                  (Store.Make [other_api; docs_v1] 1)).1)) = None.
Proof.
  apply (absent_run_removes (desired PNone (PStr "absent"))
           (Store.Make [other_api; docs_v1] 1) (ExitJson true (Some ∅)));
    [reflexivity|vm_compute; lia|vm_compute; reflexivity].
Defined.

(** ** What a pass depends on *)

Section Frame.
Context {S : Type} `{Client S}.

Lemma process_request_ignores_log (self : module) (w : world S) cs :
  (process_request self (World (remote w) cs)).2 = (process_request self w).2
  ∧ remote (process_request self (World (remote w) cs)).1
    = remote (process_request self w).1.
Proof.
  unfold_pass.
  destruct (client_get_rest_apis (remote w)) as [[l]|err]; simpl; [|done].
  destruct (filter_by_name _ l) as [[|r rest]| |]; simpl; try done;
    destruct (decide (_ = PStr "absent")); simpl;
    try destruct (negb (bool_decide (r = ∅))); simpl;
    try destruct (_is_changed r (params self)); simpl;
    destruct (check_mode self); simpl;
    try destruct (client_create_rest_api _ _) as [s [a|err]]; simpl;
    try destruct (client_delete_rest_api _ _) as [s [a|err]]; simpl;
    try destruct (client_update_rest_api _ _ _) as [s [a|err]]; simpl;
    done.
Qed.

Lemma check_mode_keeps_remote (p : dict) (w : world S) :
  remote (process_request (AnsibleModule p true) w).1 = remote w.
Proof.
  unfold_pass.
  destruct (client_get_rest_apis (remote w)) as [[l]|err]; simpl; [|done].
  destruct (filter_by_name _ l) as [[|r rest]| |]; simpl; try done;
    destruct (decide (_ = PStr "absent")); simpl;
    try destruct (negb (bool_decide (r = ∅))); simpl;
    try destruct (_is_changed r p); simpl; done.
Qed.

(** X14: the pass reads three parameters only.  Two parameter bags with the
    same name and the same description, and of which either both or neither
    have the state 'absent', give the same pass: the same calls, the same
    remote state and the same outcome, whatever else the bags hold. *)
Theorem pass_reads_three_parameters (p p' : dict) (c : bool) (w : world S) :
  get p "name" = get p' "name" →
  get p "description" = get p' "description" →
  (get p "state" = PStr "absent" ↔ get p' "state" = PStr "absent") →
  process_request (AnsibleModule p c) w = process_request (AnsibleModule p' c) w.
Proof.
  intros Hn Hd Hs. unfold_pass. unfold create_kwargs, _is_changed. simpl.
  rewrite Hn, Hd.
  destruct (decide (get p "state" = PStr "absent")) as [Ha|Ha],
    (decide (get p' "state" = PStr "absent")) as [Ha'|Ha'];
    try done; exfalso; tauto.
Qed.

(** X15: a check-mode pass leaves no trace in what follows: any pass started
    after it, with any parameters and in either mode, has the outcome and
    leaves the remote state that it would have had without the check-mode
    pass. *)
Theorem check_mode_pass_leaves_no_trace
    (p : dict) (next : module) (w : world S) :
  (process_request next (process_request (AnsibleModule p true) w).1).2
  = (process_request next w).2
  ∧ remote (process_request next (process_request (AnsibleModule p true) w).1).1
    = remote (process_request next w).1.
Proof.
  pose proof (check_mode_keeps_remote p w) as Hr.
  destruct (process_request (AnsibleModule p true) w) as [[s cs] out].
  simpl in *. subst s. apply process_request_ignores_log.
Qed.

End Frame.

Lemma pass_reads_three_parameters_witness :
  process_request
    (AnsibleModule (<[ "cert_name" := PStr "x" ]> (desired (PStr "v2") PNone))
       false) (remote_with [docs_v1])
  = process_request
      (AnsibleModule (desired (PStr "v2") (PStr "present")) false)
      (remote_with [docs_v1]).
Proof.
  apply (pass_reads_three_parameters
           (<[ "cert_name" := PStr "x" ]> (desired (PStr "v2") PNone))
           (desired (PStr "v2") (PStr "present")) false (remote_with [docs_v1]));
    [reflexivity|reflexivity|].
  split; intros Habs; vm_compute in Habs; discriminate Habs.
Defined.
